(** * dnsaddhost: adding a host, or one more address of a host, through the
      Netmagis REST API

    A shallow embedding of [utils/dnsaddhost.py] and the properties of its
    [main] routine.

    The script talks to an object [nm] of class [netmagis] (module
    [nmcli.core]) and, through it, to the remote server. [main] is embedded
    as a tree of calls to that object: every call is a node, the answer of
    the outside world selects the branch. A run is a path through the tree;
    its trace records each call together with the answer it got. *)

From stdpp Require Import gmap strings list fin_maps.
From Stdlib Require Import ZArith DecimalString Floats.SpecFloat.
From Stdlib Require Import DecimalPos DecimalZ.

Set Warnings "-register-all".

Local Open Scope string_scope.

(** ** Python values *)

(** The values [main] handles: its string arguments, what [nm] hands back
    and what [r.json ()] decodes. A [str] is a [string], one element per
    character; a JSON object is a [dict] with [str] keys. *)
Inductive pyval : Type :=
| PyNone
| PyBool (b : bool)
| PyInt (z : Z)
| PyFloat (f : spec_float)
| PyStr (s : string)
| PyList (l : list pyval)
| PyDict (d : gmap string pyval).

(** The exceptions that occur in [main], each written after the class an
    [except] clause matches it with: [RuntimeError m] is an instance, with
    message [m], of [RuntimeError] or of a class derived from it
    ([NotImplementedError], [RecursionError], a class of [nmcli.core]);
    [OtherError cls] is an instance of a class [cls] that is none of the
    classes listed here and derives from none of them (an [OSError], a
    network failure of the HTTP library). *)
Inductive exn : Type :=
| RuntimeError (m : string)
| UnboundLocalError (var : string)
| TypeError
| KeyError
| IndexError
| AttributeError
| ValueError
| OtherError (cls : string).

(** [v is None] *)
Definition is_None (v : pyval) : bool :=
  match v with PyNone => true | _ => false end.

(** Truth value of [v], as tested by [not v]. *)
Definition truthy (v : pyval) : bool :=
  match v with
  | PyNone => false
  | PyBool b => b
  | PyInt z => negb (z =? 0)%Z
  | PyFloat f => match f with S754_zero _ => false | _ => true end
  | PyStr s => negb (String.length s =? 0)%nat
  | PyList l => negb (length l =? 0)%nat
  | PyDict d => negb (size d =? 0)%nat
  end.

(** [len (v)]: defined on sequences and mappings, [TypeError] otherwise. *)
Definition len (v : pyval) : nat + exn :=
  match v with
  | PyStr s => inl (String.length s)
  | PyList l => inl (length l)
  | PyDict d => inl (size d)
  | _ => inr TypeError
  end.

(** [v [0]]. A [dict] decoded from JSON has no integer key. *)
Definition getitem_0 (v : pyval) : pyval + exn :=
  match v with
  | PyList (x :: _) => inl x
  | PyList [] => inr IndexError
  | PyStr (String c _) => inl (PyStr (String c EmptyString))
  | PyStr EmptyString => inr IndexError
  | PyDict _ => inr KeyError
  | _ => inr TypeError
  end.

(** [v [key]] for a [str] key. *)
Definition getitem (v : pyval) (key : string) : pyval + exn :=
  match v with
  | PyDict d => match d !! key with Some x => inl x | None => inr KeyError end
  | _ => inr TypeError
  end.

(** [v.append (x)]: the list object [v] after the call; only a list has the
    method. *)
Definition append (v x : pyval) : pyval + exn :=
  match v with
  | PyList l => inl (PyList (l ++ [x]))
  | _ => inr AttributeError
  end.

Section Str.

(** [repr] of a float, a list or a dict (the Python run-time's rendering,
    which the script does not define). *)
Variable repr : pyval -> string.

(** [str (v)], which is also what a [{}] field of [str.format] shows. *)
Definition str (v : pyval) : string :=
  match v with
  | PyNone => "None"
  | PyBool true => "True"
  | PyBool false => "False"
  | PyInt z => NilZero.string_of_int (Z.to_int z)
  | PyStr s => s
  | _ => repr v
  end.

End Str.

(** ** The [netmagis] object *)

(** Arguments of [nm.api (verb, uri, params=..., json=...)]. *)
Record request : Type := Request {
  verb : string;
  uri : string;
  params : option pyval;
  json : option pyval
}.

(** The object [nm.api] returns: whether the server reported success, and
    the decoded body ([None] when the body is not JSON). *)
Record response : Type := Response {
  resp_ok : bool;
  resp_json : option pyval
}.

(** How a computation ends when it does not return. *)
Inductive stop : Type :=
| Grmbl (msg : string)
| BadAnswer (r : response)
| Raised (e : exn).

(** The calls [main] makes into [nmcli.core], indexed by what they return. *)
Inductive netmagisE : Type -> Type :=
| default_conf_filename : netmagisE string
| netmagis_new : netmagisE unit
| read_conf (configfile : string) : netmagisE unit
| split_fqdn (fqdn : string) : netmagisE (pyval * pyval * pyval)
| get_idview (view : string) : netmagisE pyval
| api (rq : request) : netmagisE response.

(** ** Programs *)

(** A program returns, stops, or makes a call and continues with its
    answer: the value returned, or the way the call itself ended (an
    exception raised or the process terminated inside it). *)
Inductive prog (R : Type) : Type :=
| Ret (r : R)
| Stop (s : stop)
| Vis {X : Type} (e : netmagisE X) (k : X + stop -> prog R).

Arguments Ret {R} r.
Arguments Stop {R} s.
Arguments Vis {R X} e k.

Fixpoint bind {A B : Type} (p : prog A) (f : A -> prog B) : prog B :=
  match p with
  | Ret a => f a
  | Stop s => Stop s
  | Vis e k => Vis e (fun a => bind (k a) f)
  end.

Declare Scope prog_scope.
Delimit Scope prog_scope with prog.
Bind Scope prog_scope with prog.

Notation "x <- p ;; q" := (bind p (fun x => q))
  (at level 100, p at next level, right associativity) : prog_scope.
Notation "p ;; q" := (bind p (fun _ => q))
  (at level 100, right associativity) : prog_scope.

Local Open Scope prog_scope.

(** A call whose failure propagates. *)
Definition call {X : Type} (e : netmagisE X) : prog X :=
  Vis e (fun a => match a with inl x => Ret x | inr s => Stop s end).

Definition raise {R : Type} (e : exn) : prog R := Stop (Raised e).

(** A Python operation that returns or raises. *)
Definition lift {R : Type} (v : R + exn) : prog R :=
  match v with inl x => Ret x | inr e => raise e end.

(** [try: body / except ...: handler]. The handler tells which exceptions
    its clause matches; a terminated process is not an exception the clause
    sees. *)
Fixpoint try_except {R : Type} (body : prog R) (handler : exn -> option (prog R))
  : prog R :=
  match body with
  | Ret r => Ret r
  | Stop (Raised e) =>
      match handler e with Some h => h | None => Stop (Raised e) end
  | Stop s => Stop s
  | Vis e k => Vis e (fun a => try_except (k a) handler)
  end.

(** Reading a local variable: [UnboundLocalError] when nothing was assigned
    to it. *)
Definition local {R : Type} (var : string) (v : option R) : prog R :=
  match v with Some x => Ret x | None => raise (UnboundLocalError var) end.

(** Modelled from the spec: [netmagis.grmbl] (defined in [nmcli.core]). Every
    failure prints a message and terminates the process with a non-zero
    status. *)
Definition grmbl {R : Type} (msg : string) : prog R := Stop (Grmbl msg).

(** Modelled from the spec: [netmagis.test_answer] (defined in [nmcli.core]).
    Any non-success response from the remote API is surfaced immediately as
    a fatal error. *)
Definition test_answer (r : response) : prog unit :=
  if resp_ok r then Ret tt else Stop (BadAnswer r).

(** [r.json ()] *)
Definition resp_json_of (r : response) : prog pyval :=
  match resp_json r with Some j => Ret j | None => raise ValueError end.

(** ** The script *)

(** What [parser.parse_args ()] returns: [config_file] is [None] unless the
    option [-c] was given. *)
Record Namespace : Type := Args {
  config_file : option string;
  fqdn : string;
  ip : string;
  view : string
}.

Section Main.

Variable repr : pyval -> string.

(** [query], the parameters of the host lookup. *)
Definition query (name domain : pyval) (view : string) : pyval :=
  PyDict (list_to_map [
    ("name", name);
    ("domain", domain);
    ("view", PyStr view)
  ]).

(** [data] of the [nr == 0] branch, the host to create. *)
Definition new_host (name iddom idview : pyval) (ip : string) : pyval :=
  let idhinfo := PyInt 0 in
  PyDict (list_to_map [
    ("name", name);
    ("iddom", iddom);
    ("idview", idview);
    ("mac", PyStr EmptyString);
    ("idhinfo", idhinfo);
    ("comment", PyStr EmptyString);
    ("respname", PyStr EmptyString);
    ("respmail", PyStr EmptyString);
    ("iddhcpprof", PyInt (-1));
    ("ttl", PyInt (-1));
    ("addr", PyList [PyStr ip])
  ]).

(** The [nr == 0] branch: the host does not exist, create it with a POST
    request. *)
Definition create_host (name iddom idview : pyval) (ip : string) : prog unit :=
  let data := new_host name iddom idview ip in
  r <- call (api (Request "post" "/hosts" None (Some data))) ;;
  test_answer r.

(** [data ['addr'].append (ip)]: the list that [data] holds under ['addr']
    is extended in place, so [data] shows the longer list afterwards. The
    last case is never reached: only a dict gets past [getitem]. *)
Definition append_addr (data : pyval) (ip : string) : prog pyval :=
  addr <- lift (getitem data "addr") ;;
  addr' <- lift (append addr (PyStr ip)) ;;
  match data with
  | PyDict d => Ret (PyDict (<["addr" := addr']> d))
  | _ => Ret data
  end.

(** The [nr == 1] branch: the host exists, get its full data with one more
    GET request and send them back, with the new address, in a PUT
    request. *)
Definition update_host (j : pyval) (ip : string) : prog unit :=
  j0 <- lift (getitem_0 j) ;;
  idhost <- lift (getitem j0 "idhost") ;;
  let uri := "/hosts/" +:+ str repr idhost in
  r <- call (api (Request "get" uri None None)) ;;
  test_answer r ;;
  data <- resp_json_of r ;;
  data <- append_addr data ip ;;
  r <- call (api (Request "put" uri None (Some data))) ;;
  test_answer r.

(** The message of the last branch. *)
Definition more_than_once (name domain : pyval) (view : string) : string :=
  "Server error: host '" +:+ str repr name +:+ "." +:+ str repr domain
    +:+ "' exists more than once in view " +:+ view.

Definition main (args : Namespace) : prog unit :=
  configfile <-
    match config_file args with
    | None => f <- call default_conf_filename ;; Ret (Some f)
    | Some _ => Ret None
    end ;;
  let fqdn := fqdn args in
  let ip := ip args in
  let view := view args in
  call netmagis_new ;;
  try_except
    (f <- local "configfile" configfile ;; call (read_conf f))
    (fun e => match e with RuntimeError m => Some (grmbl m) | _ => None end) ;;
  x <- call (split_fqdn fqdn) ;;
  let '(name, domain, iddom) := x in
  (if is_None name then grmbl ("Invalid FQDN " +:+ fqdn) else Ret tt) ;;
  (if is_None iddom then grmbl ("Unknown domain " +:+ str repr domain)
   else Ret tt) ;;
  idview <- call (get_idview view) ;;
  (if negb (truthy idview) then grmbl ("Unknown view " +:+ view) else Ret tt) ;;
  r <- call (api (Request "get" "/hosts" (Some (query name domain view)) None)) ;;
  test_answer r ;;
  j <- resp_json_of r ;;
  nr <- lift (len j) ;;
  match nr with
  | 0 => create_host name iddom idview ip
  | 1 => update_host j ip
  | _ => grmbl (more_than_once name domain view)
  end.

End Main.

(** ** Runs *)

(** One step of a run: a call of [main] into the [netmagis] object and how
    it ended. *)
Inductive entry : Type :=
| EDefaultConfFilename (a : string + stop)
| ENew (a : unit + stop)
| EReadConf (configfile : string) (a : unit + stop)
| ESplitFqdn (fqdn : string) (a : pyval * pyval * pyval + stop)
| EGetIdview (view : string) (a : pyval + stop)
| EApi (rq : request) (a : response + stop).

Definition log {X : Type} (e : netmagisE X) : X + stop -> entry :=
  match e with
  | default_conf_filename => EDefaultConfFilename
  | netmagis_new => ENew
  | read_conf configfile => EReadConf configfile
  | split_fqdn fqdn => ESplitFqdn fqdn
  | get_idview view => EGetIdview view
  | api rq => EApi rq
  end.

(** [exec p t o]: the program [p] has a run with trace [t] that ends with
    [o], a returned value or a [stop]. The outside world is free to answer
    each call as it likes. For [main], [inl tt] is exit status 0. *)
Fixpoint exec {R : Type} (p : prog R) (t : list entry) (o : R + stop) : Prop :=
  match p with
  | Ret r => t = [] ∧ o = inl r
  | Stop s => t = [] ∧ o = inr s
  | Vis e k => ∃ a t', t = log e a :: t' ∧ exec (k a) t' o
  end.

(** What the outside world answered, without the call it answers. *)
Inductive reply : Type :=
| RFilename (s : string)
| RUnit
| RSplit (x : pyval * pyval * pyval)
| RIdview (v : pyval)
| RResponse (r : response)
| RStop (s : stop).

Definition reply_of (en : entry) : reply :=
  match en with
  | EDefaultConfFilename (inl s) => RFilename s
  | ENew (inl _) | EReadConf _ (inl _) => RUnit
  | ESplitFqdn _ (inl x) => RSplit x
  | EGetIdview _ (inl v) => RIdview v
  | EApi _ (inl r) => RResponse r
  | EDefaultConfFilename (inr s) | ENew (inr s) | EReadConf _ (inr s)
  | ESplitFqdn _ (inr s) | EGetIdview _ (inr s) | EApi _ (inr s) => RStop s
  end.

(** The answer to the call [e] that the reply [rp] stands for, if it has
    the type [e] expects. *)
Definition decode {X : Type} (e : netmagisE X) (rp : reply) : option (X + stop) :=
  match e in netmagisE X, rp return option (X + stop) with
  | _, RStop s => Some (inr s)
  | default_conf_filename, RFilename s => Some (inl s)
  | netmagis_new, RUnit => Some (inl tt)
  | read_conf _, RUnit => Some (inl tt)
  | split_fqdn _, RSplit x => Some (inl x)
  | get_idview _, RIdview v => Some (inl v)
  | api _, RResponse r => Some (inl r)
  | _, _ => None
  end.

(** The run of [p] against a script of replies, one per call: defined when
    the script fits the calls [p] makes. *)
Fixpoint play {R : Type} (p : prog R) (rs : list reply)
  : option (list entry * (R + stop)) :=
  match p, rs with
  | Ret r, [] => Some ([], inl r)
  | Stop s, [] => Some ([], inr s)
  | Vis e k, rp :: rs' =>
      match decode e rp with
      | Some a =>
          match play (k a) rs' with
          | Some (t, o) => Some (log e a :: t, o)
          | None => None
          end
      | None => None
      end
  | _, _ => None
  end.

(** The API requests of a run, in the order they were issued, each with how
    it ended. *)
Definition api_calls (t : list entry) : list (request * (response + stop)) :=
  omap (λ en, match en with EApi rq a => Some (rq, a) | _ => None end) t.

Definition requests (t : list entry) : list request := (api_calls t).*1.

Definition has_verb (v : string) (rq : request) : bool := String.eqb (verb rq) v.

(** A request that changes the data of the server. *)
Definition mutating (rq : request) : bool := has_verb "post" rq || has_verb "put" rq.

(** What the run got from [GET u]: the decoded body of the first response
    to such a request, when the response is a success. *)
Fixpoint fetched (u : string) (t : list entry) : option pyval :=
  match t with
  | [] => None
  | EApi rq (inl r) :: t' =>
      if has_verb "get" rq && String.eqb (uri rq) u
      then (if resp_ok r then resp_json r else None)
      else fetched u t'
  | _ :: t' => fetched u t'
  end.

(** How the call of a step failed, if it did. *)
Definition failure (en : entry) : option stop :=
  match en with
  | EDefaultConfFilename (inr s) | ENew (inr s) | EReadConf _ (inr s)
  | ESplitFqdn _ (inr s) | EGetIdview _ (inr s) | EApi _ (inr s) => Some s
  | _ => None
  end.

(** The failure that the [except RuntimeError] clause around [nm.read_conf]
    catches: an instance of [RuntimeError] or of a class derived from it,
    which is what [RuntimeError m] stands for. *)
Definition caught (en : entry) : bool :=
  match en with
  | EReadConf _ (inr (Raised (RuntimeError _))) => true
  | _ => false
  end.

(** The reply of a step, without the path [netmagis.default_conf_filename]
    returns: that path comes from the account the tool runs under, not from
    the configuration or from the server. *)
Definition answer (en : entry) : reply :=
  match en with
  | EDefaultConfFilename (inl _) => RFilename EmptyString
  | _ => reply_of en
  end.

(** For contrast, a program that is not [main]: it sends the path of the
    configuration file to the server. *)
Definition tells_path : prog unit :=
  f <- call default_conf_filename ;;
  r <- call (api (Request "get" f None None)) ;;
  test_answer r.

(** ** Sample runs *)

(** The runs of the scenarios: [dnsaddhost host1.example.com 192.0.2.10
    internal], called a first time, then once more, and some runs that
    fail. *)
Module Sample.

(** No value of the samples needs [repr]: what they show through [str] is
    an [int] or a [str]. *)
Definition repr (v : pyval) : string := "<object>".

Definition args : Namespace :=
  Args None "host1.example.com" "192.0.2.10" "internal".

(** The same command with [-c /etc/netmagisrc]. *)
Definition args_c : Namespace :=
  Args (Some "/etc/netmagisrc") "host1.example.com" "192.0.2.10" "internal".

Definition conf : string := "/home/op/.config/netmagisrc".

Definition name : pyval := PyStr "host1".
Definition domain : pyval := PyStr "example.com".

(** A successful response with body [j]. *)
Definition ok (j : pyval) : response := Response true (Some j).

Definition configured : list entry :=
  [EDefaultConfFilename (inl conf); ENew (inl tt); EReadConf conf (inl tt)].

Definition resolved : list entry :=
  configured ++
  [ESplitFqdn "host1.example.com" (inl (name, domain, PyInt 3));
   EGetIdview "internal" (inl (PyInt 1))].

Definition the_lookup : request :=
  Request "get" "/hosts" (Some (query name domain "internal")) None.

(** First call: no host yet. *)
Definition created : list entry :=
  resolved ++
  [EApi the_lookup (inl (ok (PyList [])));
   EApi (Request "post" "/hosts" None
           (Some (new_host name (PyInt 3) (PyInt 1) "192.0.2.10")))
        (inl (ok PyNone))].

(** What the lookup tells of host 42. *)
Definition summary : gmap string pyval :=
  list_to_map [("idhost", PyInt 42); ("name", name)].

(** The full data of host 42 with the addresses [addr]. *)
Definition host (addr : list pyval) : gmap string pyval :=
  list_to_map [
    ("idhost", PyInt 42);
    ("name", name);
    ("iddom", PyInt 3);
    ("idview", PyInt 1);
    ("mac", PyStr EmptyString);
    ("idhinfo", PyInt 0);
    ("comment", PyStr "web server");
    ("respname", PyStr EmptyString);
    ("respmail", PyStr EmptyString);
    ("iddhcpprof", PyInt (-1));
    ("ttl", PyInt 3600);
    ("addr", PyList addr)
  ].

(** The same call once more: the host exists, with that very address. *)
Definition updated : list entry :=
  resolved ++
  [EApi the_lookup (inl (ok (PyList [PyDict summary])));
   EApi (Request "get" "/hosts/42" None None)
        (inl (ok (PyDict (host [PyStr "192.0.2.10"]))));
   EApi (Request "put" "/hosts/42" None
           (Some (PyDict (host [PyStr "192.0.2.10"; PyStr "192.0.2.10"]))))
        (inl (ok PyNone))].

(** The first call under another account. *)
Definition created_as_root : list entry :=
  [EDefaultConfFilename (inl "/root/.config/netmagisrc"); ENew (inl tt);
   EReadConf "/root/.config/netmagisrc" (inl tt);
   ESplitFqdn "host1.example.com" (inl (name, domain, PyInt 3));
   EGetIdview "internal" (inl (PyInt 1));
   EApi the_lookup (inl (ok (PyList [])));
   EApi (Request "post" "/hosts" None
           (Some (new_host name (PyInt 3) (PyInt 1) "192.0.2.10")))
        (inl (ok PyNone))].

(** The server knows the host twice. *)
Definition twice : list entry :=
  resolved ++
  [EApi the_lookup (inl (ok (PyList [PyDict summary; PyDict summary])))].

Definition found_twice : stop :=
  Grmbl "Server error: host 'host1.example.com' exists more than once in view internal".

(** The server refuses the lookup. *)
Definition refused : list entry :=
  resolved ++ [EApi the_lookup (inl (Response false None))].

(** The server refuses the GET on the host, the PUT, the POST. *)
Definition refused_get : list entry :=
  resolved ++
  [EApi the_lookup (inl (ok (PyList [PyDict summary])));
   EApi (Request "get" "/hosts/42" None None) (inl (Response false None))].

Definition refused_put : list entry :=
  resolved ++
  [EApi the_lookup (inl (ok (PyList [PyDict summary])));
   EApi (Request "get" "/hosts/42" None None)
        (inl (ok (PyDict (host [PyStr "192.0.2.10"]))));
   EApi (Request "put" "/hosts/42" None
           (Some (PyDict (host [PyStr "192.0.2.10"; PyStr "192.0.2.10"]))))
        (inl (Response false None))].

Definition refused_post : list entry :=
  resolved ++
  [EApi the_lookup (inl (ok (PyList [])));
   EApi (Request "post" "/hosts" None
           (Some (new_host name (PyInt 3) (PyInt 1) "192.0.2.10")))
        (inl (Response false None))].

(** No domain [example.com]. *)
Definition no_domain : list entry :=
  configured ++ [ESplitFqdn "host1.example.com" (inl (name, domain, PyNone))].

(** The view resolves to the identifier 0. *)
Definition view_0 : list entry :=
  configured ++
  [ESplitFqdn "host1.example.com" (inl (name, domain, PyInt 3));
   EGetIdview "internal" (inl (PyInt 0))].

(** The configuration file cannot be read: [RuntimeError], or an exception
    of another class. *)
Definition conf_error : list entry :=
  [EDefaultConfFilename (inl conf); ENew (inl tt);
   EReadConf conf (inr (Raised (RuntimeError "no url in configuration")))].

Definition conf_denied : list entry :=
  [EDefaultConfFilename (inl conf); ENew (inl tt);
   EReadConf conf (inr (Raised (OtherError "PermissionError")))].

(** The name cannot be split. *)
Definition no_name : list entry :=
  configured ++ [ESplitFqdn "host1.example.com" (inl (PyNone, PyNone, PyNone))].

(** The lookup tells of one host, without its identifier. *)
Definition anonymous : gmap string pyval := list_to_map [("name", name)].

Definition no_idhost : list entry :=
  resolved ++ [EApi the_lookup (inl (ok (PyList [PyDict anonymous])))].

(** The body of the lookup is [null]. *)
Definition null_body : list entry :=
  resolved ++ [EApi the_lookup (inl (ok PyNone))].

(** The full data of host 42 come without [addr], or with a string there. *)
Definition bare : gmap string pyval :=
  list_to_map [("idhost", PyInt 42); ("name", name)].

Definition no_addr : list entry :=
  resolved ++
  [EApi the_lookup (inl (ok (PyList [PyDict summary])));
   EApi (Request "get" "/hosts/42" None None) (inl (ok (PyDict bare)))].

Definition one_addr : gmap string pyval :=
  list_to_map [("idhost", PyInt 42); ("addr", PyStr "192.0.2.10")].

Definition addr_not_a_list : list entry :=
  resolved ++
  [EApi the_lookup (inl (ok (PyList [PyDict summary])));
   EApi (Request "get" "/hosts/42" None None) (inl (ok (PyDict one_addr)))].

End Sample.

(** ** Facts about runs *)

Lemma decode_reply_of {X : Type} (e : netmagisE X) (a : X + stop) :
  decode e (reply_of (log e a)) = Some a.
Proof. destruct e, a as [x|s]; try destruct x; reflexivity. Qed.

Lemma decode_Some {X : Type} (e : netmagisE X) (rp : reply) (a : X + stop) :
  decode e rp = Some a → reply_of (log e a) = rp.
Proof.
  destruct e, rp; simpl; intros H; try discriminate H;
    injection H as <-; reflexivity.
Qed.

(** [play] computes exactly the runs of [exec]. *)
Lemma play_exec {R : Type} (p : prog R) rs t o :
  play p rs = Some (t, o) ↔ exec p t o ∧ reply_of <$> t = rs.
Proof.
  revert rs t o. induction p as [r|s|X e k IH]; intros rs t o; simpl.
  - destruct rs; split.
    + intros [= <- <-]. done.
    + intros [[-> ->] _]. done.
    + done.
    + intros [[-> _] [=]].
  - destruct rs; split.
    + intros [= <- <-]. done.
    + intros [[-> ->] _]. done.
    + done.
    + intros [[-> _] [=]].
  - destruct rs as [|rp rs]; split.
    + done.
    + intros [(a & t' & -> & _) [=]].
    + destruct (decode e rp) as [a|] eqn:Hd; [|done].
      destruct (play (k a) rs) as [[t' o']|] eqn:Hp; [|done].
      intros [= <- <-]. apply IH in Hp as [Hex <-].
      split; [eauto|]. simpl. f_equal. by apply decode_Some.
    + intros [(a & t' & -> & Hex) [= <- <-]].
      rewrite decode_reply_of.
      pose proof (proj2 (IH a (reply_of <$> t') t' o) (conj Hex eq_refl)) as Hp.
      change (list_fmap entry reply reply_of t') with (reply_of <$> t').
      by rewrite Hp.
Qed.

(** A trace that [play] reproduces from its own replies is a run. *)
Lemma replay {R : Type} (p : prog R) t o :
  play p (reply_of <$> t) = Some (t, o) → exec p t o.
Proof. intros H. by apply play_exec in H as [H _]. Qed.

(** The replies determine the run, whatever the program. *)
Lemma exec_deterministic {R : Type} (p : prog R) t1 o1 t2 o2 :
  exec p t1 o1 → exec p t2 o2 →
  reply_of <$> t1 = reply_of <$> t2 →
  t1 = t2 ∧ o1 = o2.
Proof.
  intros H1 H2 Heq.
  pose proof (proj2 (play_exec p _ t1 o1) (conj H1 eq_refl)) as P1.
  pose proof (proj2 (play_exec p _ t2 o2) (conj H2 eq_refl)) as P2.
  rewrite Heq, P2 in P1. by injection P1 as -> ->.
Qed.

(** Two runs of [tells_path] under different accounts get the same answers
    and issue different requests. *)
Lemma tells_path_differs :
  ∃ t1 t2 o,
    exec tells_path t1 o ∧ exec tells_path t2 o ∧
    answer <$> t1 = answer <$> t2 ∧
    api_calls t1 ≠ api_calls t2.
Proof.
  exists [EDefaultConfFilename (inl "a");
          EApi (Request "get" "a" None None) (inl (Response true None))],
         [EDefaultConfFilename (inl "b");
          EApi (Request "get" "b" None None) (inl (Response true None))],
         (inl tt).
  split_and!.
  - apply replay. reflexivity.
  - apply replay. reflexivity.
  - reflexivity.
  - discriminate.
Qed.

(** The scenarios are runs of [main]. *)
Example first_call :
  play (main Sample.repr Sample.args) (reply_of <$> Sample.created)
  = Some (Sample.created, inl tt).
Proof. vm_compute. reflexivity. Qed.

Example same_call_repeated :
  play (main Sample.repr Sample.args) (reply_of <$> Sample.updated)
  = Some (Sample.updated, inl tt).
Proof. vm_compute. reflexivity. Qed.

(** A refused request ends the run, whichever of the four it is. *)
Example lookup_refused :
  play (main Sample.repr Sample.args) (reply_of <$> Sample.refused)
  = Some (Sample.refused, inr (BadAnswer (Response false None))).
Proof. vm_compute. reflexivity. Qed.

Example get_refused :
  play (main Sample.repr Sample.args) (reply_of <$> Sample.refused_get)
  = Some (Sample.refused_get, inr (BadAnswer (Response false None))).
Proof. vm_compute. reflexivity. Qed.

Example put_refused :
  play (main Sample.repr Sample.args) (reply_of <$> Sample.refused_put)
  = Some (Sample.refused_put, inr (BadAnswer (Response false None))).
Proof. vm_compute. reflexivity. Qed.

Example post_refused :
  play (main Sample.repr Sample.args) (reply_of <$> Sample.refused_post)
  = Some (Sample.refused_post, inr (BadAnswer (Response false None))).
Proof. vm_compute. reflexivity. Qed.

(** With [-c], the run is over once the [netmagis] object is built. *)
Example with_config_file_option :
  play (main Sample.repr Sample.args_c) [RUnit]
  = Some ([ENew (inl tt)], inr (Raised (UnboundLocalError "configfile"))).
Proof. reflexivity. Qed.

(** ** Case analysis of the runs of [main] *)

Ltac exec_unfold H :=
  unfold create_host, update_host, append_addr, test_answer, resp_json_of,
    lift, local, grmbl, raise, call in H;
  cbn [bind try_except exec log resp_ok resp_json] in H.

(** The term whose shape blocks the evaluation of [x]. *)
Ltac scrutinee x :=
  match x with
  | context [match ?y with _ => _ end] => scrutinee y
  | _ => x
  end.

(** One step along a run [H : exec p t o]: take the answer of the next call,
    or split on the value the next test looks at. *)
Ltac exec_step H :=
  exec_unfold H;
  lazymatch type of H with
  | _ ∧ _ => destruct H as [-> ->]
  | ∃ _, _ =>
      let a := fresh "a" in
      destruct H as (a & ? & -> & H);
      destruct a as [a|?];
      [try match type of a with response => destruct a as [? ?] end|]
  | _ =>
      match type of H with
      | context [match ?x with _ => _ end] =>
          let y := scrutinee x in destruct y eqn:?
      end
  end.

Ltac runs_of_main H := unfold main in H; repeat exec_step H.

(** Membership in a trace written out. *)
Ltac elem_inv H :=
  apply list_elem_of_In in H; cbn [In] in H; destruct_or?; simplify_eq.

Ltac elem := apply list_elem_of_In; cbn [In]; tauto.

(** ** Properties of [main] *)

Section Properties.

Variable repr : pyval -> string.

Implicit Types (args : Namespace) (t : list entry) (o : unit + stop).
Implicit Types (j name domain iddom idview idhost : pyval).
Implicit Types (d : gmap string pyval).

Lemma is_None_true (v : pyval) : is_None v = true ↔ v = PyNone.
Proof. destruct v; simpl; split; congruence. Qed.

(** The three checks of [main] before the host lookup. *)
Lemma name_check args t o f domain iddom :
  exec (main repr args) t o →
  ESplitFqdn f (inl (PyNone, domain, iddom)) ∈ t →
  o = inr (Grmbl ("Invalid FQDN " +:+ fqdn args)) ∧ api_calls t = [].
Proof.
  intros H Hin. runs_of_main H.
  all: elem_inv Hin.
  all: done.
Qed.

Lemma domain_check args t o f name domain :
  exec (main repr args) t o →
  ESplitFqdn f (inl (name, domain, PyNone)) ∈ t →
  name ≠ PyNone →
  o = inr (Grmbl ("Unknown domain " +:+ str repr domain)) ∧ api_calls t = [].
Proof.
  intros H Hin Hname. runs_of_main H.
  all: elem_inv Hin.
  all: try done.
  all: exfalso; by apply Hname, is_None_true.
Qed.

Lemma view_check args t o v idview :
  exec (main repr args) t o →
  EGetIdview v (inl idview) ∈ t →
  truthy idview = false →
  o = inr (Grmbl ("Unknown view " +:+ view args)) ∧ api_calls t = [].
Proof.
  intros H Hin Hfalsy. runs_of_main H.
  all: elem_inv Hin.
  all: try done.
  all: rewrite Hfalsy in *; discriminate.
Qed.

(** C1. In a run where the host lookup returns zero matches, the API
    requests are the lookup, then one POST on [/hosts], and nothing else.
    The payload of the POST carries the name, the domain identifier and
    the view identifier that were resolved earlier in the run, empty
    strings for [mac], [comment], [respname] and [respmail], 0 for
    [idhinfo], -1 for [iddhcpprof] and [ttl], and the one-element list
    [[ip]] for [addr]. *)
Theorem new_host_is_created args t o j :
  exec (main repr args) t o →
  fetched "/hosts" t = Some j →
  len j = inl 0%nat →
  ∃ name domain iddom idview d,
    ESplitFqdn (fqdn args) (inl (name, domain, iddom)) ∈ t ∧
    EGetIdview (view args) (inl idview) ∈ t ∧
    requests t =
      [Request "get" "/hosts" (Some (query name domain (view args))) None;
       Request "post" "/hosts" None (Some (PyDict d))] ∧
    d !! "name" = Some name ∧
    d !! "iddom" = Some iddom ∧
    d !! "idview" = Some idview ∧
    d !! "mac" = Some (PyStr EmptyString) ∧
    d !! "comment" = Some (PyStr EmptyString) ∧
    d !! "respname" = Some (PyStr EmptyString) ∧
    d !! "respmail" = Some (PyStr EmptyString) ∧
    d !! "idhinfo" = Some (PyInt 0) ∧
    d !! "iddhcpprof" = Some (PyInt (-1)) ∧
    d !! "ttl" = Some (PyInt (-1)) ∧
    d !! "addr" = Some (PyList [PyStr (ip args)]).
Proof.
  intros H Hf Hlen. runs_of_main H.
  all: vm_compute in Hf; simplify_eq.
  all: try congruence.
  all: eexists _, _, _, _, _.
  all: split_and!; [elem|elem|reflexivity|..].
  all: vm_compute; reflexivity.
Qed.

(** C8. Every run issues at most one mutating request: the POST and PUT
    requests of a run, taken together, are at most one. *)
Theorem at_most_one_mutating_call args t o :
  exec (main repr args) t o →
  (length (filter (λ rq, mutating rq) (requests t)) ≤ 1)%nat.
Proof.
  intros H. runs_of_main H.
  all: vm_compute; lia.
Qed.

(** C10. Two runs of [main] on the same arguments that get the same
    answers from the configuration reader, from the FQDN and view resolvers
    and from the remote API issue the same API requests, with the same
    payloads, in the same order, and end the same way. Nothing else a run
    takes in has a say: the runs may differ in the path of the default
    configuration file. (This is a property of [main], not of every
    program: see [tells_path_differs].) *)
Theorem main_deterministic args t1 o1 t2 o2 :
  exec (main repr args) t1 o1 →
  exec (main repr args) t2 o2 →
  answer <$> t1 = answer <$> t2 →
  api_calls t1 = api_calls t2 ∧ o1 = o2.
Proof.
  intros H1 H2 Heq. runs_of_main H1.
  all: unfold main in H2.
  all: repeat (exec_step H2;
               repeat match goal with
                      | Hq : context [answer] |- _ => progress simpl in Hq
                      end;
               simplify_eq; try congruence).
  all: done.
Qed.

(** C4. In a run where the host lookup returns more than one match, the
    tool stops with the message that the host exists more than once, and
    the lookup is the only API request of the run: no POST, no GET on a
    host identifier, no PUT. *)
Theorem more_than_one_match_is_fatal args t o j n :
  exec (main repr args) t o →
  fetched "/hosts" t = Some j →
  len j = inl n →
  (1 < n)%nat →
  ∃ name domain iddom,
    ESplitFqdn (fqdn args) (inl (name, domain, iddom)) ∈ t ∧
    o = inr (Grmbl (more_than_once repr name domain (view args))) ∧
    requests t =
      [Request "get" "/hosts" (Some (query name domain (view args))) None].
Proof.
  intros H Hf Hlen Hn. runs_of_main H.
  all: vm_compute in Hf; simplify_eq.
  all: try (assert (inl n = inl 0%nat :> nat + exn) by congruence;
            simplify_eq; lia).
  all: try (assert (inl n = inl 1%nat :> nat + exn) by congruence;
            simplify_eq; lia).
  all: eexists _, _, _; split_and!; [elem|reflexivity|reflexivity].
Qed.

(** C2. In a run where the host lookup returns exactly one match, with
    identifier [idhost], the second API request is the GET on
    [/hosts/idhost], the fetch of the full record, and the run issues no
    POST. When that GET returns a record whose address list is [A], the
    API requests are the lookup, the GET, then one PUT on [/hosts/idhost]
    whose address list is [A ++ [ip]], whether or not [ip] occurs in [A]. *)
Theorem address_is_appended args t o dm idhost :
  exec (main repr args) t o →
  fetched "/hosts" t = Some (PyList [PyDict dm]) →
  dm !! "idhost" = Some idhost →
  ∃ name domain,
    take 2 (requests t) =
      [Request "get" "/hosts" (Some (query name domain (view args))) None;
       Request "get" ("/hosts/" +:+ str repr idhost) None None] ∧
    filter (λ rq, has_verb "post" rq) (requests t) = [] ∧
    ∀ d A,
      fetched ("/hosts/" +:+ str repr idhost) t = Some (PyDict d) →
      d !! "addr" = Some (PyList A) →
      requests t =
        [Request "get" "/hosts" (Some (query name domain (view args))) None;
         Request "get" ("/hosts/" +:+ str repr idhost) None None;
         Request "put" ("/hosts/" +:+ str repr idhost) None
           (Some (PyDict (<["addr" := PyList (A ++ [PyStr (ip args)])]> d)))].
Proof.
  intros H Hf Hid. runs_of_main H.
  all: simpl in Hf; simplify_eq/=.
  all: try rewrite Hid in *; simplify_eq/=.
  all: eexists _, _; split_and!; [reflexivity|reflexivity|].
  all: intros d' A Hg HA.
  all: simpl in Hg; rewrite ?String.eqb_refl in Hg; simplify_eq/=.
  all: try rewrite HA in *; simplify_eq/=.
  all: done.
Qed.

(** C6. The record a PUT request submits is the record the GET on the same
    URI returned, with its address list one address longer: under every
    key other than [addr] the two records hold the same. *)
Theorem update_submits_the_fetched_record args t o rq a :
  exec (main repr args) t o →
  (rq, a) ∈ api_calls t →
  verb rq = "put" →
  ∃ d A d',
    fetched (uri rq) t = Some (PyDict d) ∧
    d !! "addr" = Some (PyList A) ∧
    json rq = Some (PyDict d') ∧
    d' !! "addr" = Some (PyList (A ++ [PyStr (ip args)])) ∧
    ∀ k, k ≠ "addr" → d' !! k = d !! k.
Proof.
  intros H Hin Hput. runs_of_main H.
  all: cbn [api_calls omap list_omap] in Hin; elem_inv Hin.
  all: match goal with
       | E : getitem (PyDict ?d) "addr" = inl ?x,
         E' : append ?x _ = inl _ |- _ =>
           simpl in E; destruct (d !! "addr") eqn:Haddr; [|discriminate E];
           destruct x; simplify_eq/=
       end.
  all: eexists _, _, _; split_and!; [|eassumption|reflexivity|..].
  all: try (simpl; by rewrite String.eqb_refl).
  all: try apply lookup_insert_eq.
  all: intros k Hk; by apply lookup_insert_ne.
Qed.

(** C5. A run in which [split_fqdn] finds no name stops with
    [Invalid FQDN]; one in which it finds a name but no domain identifier
    stops with [Unknown domain]; one in which [get_idview] finds no view
    identifier stops with [Unknown view]. None of them issues an API
    request, so none creates or updates a host. *)
Theorem unresolved_arguments_are_fatal args t o :
  exec (main repr args) t o →
  (∀ f name domain iddom,
     ESplitFqdn f (inl (name, domain, iddom)) ∈ t →
     (name = PyNone →
      o = inr (Grmbl ("Invalid FQDN " +:+ fqdn args)) ∧ api_calls t = []) ∧
     (name ≠ PyNone → iddom = PyNone →
      o = inr (Grmbl ("Unknown domain " +:+ str repr domain)) ∧
      api_calls t = [])) ∧
  (∀ v,
     EGetIdview v (inl PyNone) ∈ t →
     o = inr (Grmbl ("Unknown view " +:+ view args)) ∧ api_calls t = []).
Proof.
  intros H. split.
  - intros f name domain iddom Hin. split.
    + intros ->. by eapply name_check.
    + intros Hname ->. by eapply domain_check.
  - intros v Hin. by eapply view_check.
Qed.

(** C9. The view check looks at the truth value of the identifier: a run
    in which [get_idview] returns a falsy value (0, an empty string,
    [None], ...) stops with [Unknown view], before the host lookup: it
    issues no API request. *)
Theorem falsy_view_is_unknown args t o v idview :
  exec (main repr args) t o →
  EGetIdview v (inl idview) ∈ t →
  truthy idview = false →
  o = inr (Grmbl ("Unknown view " +:+ view args)) ∧ api_calls t = [].
Proof. apply view_check. Qed.

(** C7. When an API call gets a non-success response, the run ends there:
    that call is the last step of the trace, so nothing is retried and no
    further request is issued, and the tool stops on that response. *)
Theorem bad_answer_is_fatal args t o i rq r :
  exec (main repr args) t o →
  t !! i = Some (EApi rq (inl r)) →
  resp_ok r = false →
  length t = S i ∧ o = inr (BadAnswer r).
Proof.
  intros H Hi Hbad. runs_of_main H.
  all: repeat (destruct i as [|i]; simplify_eq/=).
  all: done.
Qed.

(** C3. With the option [-c], no run reads a configuration: [configfile]
    is never assigned, so the run ends on [UnboundLocalError] as soon as
    the [netmagis] object is built (or inside its constructor). *)
Theorem config_file_option_is_fatal args f t o :
  config_file args = Some f →
  exec (main repr args) t o →
  (t = [ENew (inl tt)] ∧ o = inr (Raised (UnboundLocalError "configfile")))
  ∨ (∃ s, t = [ENew (inr s)] ∧ o = inr s).
Proof.
  intros Hc H. unfold main in H. rewrite Hc in H.
  repeat exec_step H.
  - left. by destruct a.
  - right. eauto.
Qed.

End Properties.

(** ** The properties on the sample runs *)

Ltac sample_run := apply replay; vm_compute; reflexivity.

Lemma new_host_is_created_witness :
  ∃ name domain iddom idview d,
    ESplitFqdn "host1.example.com" (inl (name, domain, iddom)) ∈ Sample.created ∧
    EGetIdview "internal" (inl idview) ∈ Sample.created ∧
    requests Sample.created =
      [Request "get" "/hosts" (Some (query name domain "internal")) None;
       Request "post" "/hosts" None (Some (PyDict d))] ∧
    d !! "name" = Some name ∧
    d !! "iddom" = Some iddom ∧
    d !! "idview" = Some idview ∧
    d !! "mac" = Some (PyStr EmptyString) ∧
    d !! "comment" = Some (PyStr EmptyString) ∧
    d !! "respname" = Some (PyStr EmptyString) ∧
    d !! "respmail" = Some (PyStr EmptyString) ∧
    d !! "idhinfo" = Some (PyInt 0) ∧
    d !! "iddhcpprof" = Some (PyInt (-1)) ∧
    d !! "ttl" = Some (PyInt (-1)) ∧
    d !! "addr" = Some (PyList [PyStr "192.0.2.10"]).
Proof.
  apply (new_host_is_created Sample.repr Sample.args Sample.created (inl tt)
           (PyList [])).
  - sample_run.
  - reflexivity.
  - reflexivity.
Defined.

Lemma address_is_appended_witness :
  ∃ name domain,
    take 2 (requests Sample.updated) =
      [Request "get" "/hosts" (Some (query name domain "internal")) None;
       Request "get" "/hosts/42" None None] ∧
    filter (λ rq, has_verb "post" rq) (requests Sample.updated) = [] ∧
    requests Sample.updated =
      [Request "get" "/hosts" (Some (query name domain "internal")) None;
       Request "get" "/hosts/42" None None;
       Request "put" "/hosts/42" None
         (Some (PyDict (<["addr" := PyList [PyStr "192.0.2.10"; PyStr "192.0.2.10"]]>
                          (Sample.host [PyStr "192.0.2.10"]))))].
Proof.
  destruct (address_is_appended Sample.repr Sample.args Sample.updated (inl tt)
              Sample.summary (PyInt 42))
    as (name & domain & Hget & Hpost & Hput).
  - sample_run.
  - reflexivity.
  - vm_compute. reflexivity.
  - exists name, domain. split_and!; [exact Hget|exact Hpost|].
    apply (Hput (Sample.host [PyStr "192.0.2.10"]) [PyStr "192.0.2.10"]).
    + vm_compute. reflexivity.
    + vm_compute. reflexivity.
Defined.

Lemma more_than_one_match_is_fatal_witness :
  ∃ name domain iddom,
    ESplitFqdn "host1.example.com" (inl (name, domain, iddom)) ∈ Sample.twice ∧
    inr Sample.found_twice
    = (inr (Grmbl (more_than_once Sample.repr name domain "internal")) : unit + stop) ∧
    requests Sample.twice =
      [Request "get" "/hosts" (Some (query name domain "internal")) None].
Proof.
  apply (more_than_one_match_is_fatal Sample.repr Sample.args Sample.twice
           (inr Sample.found_twice)
           (PyList [PyDict Sample.summary; PyDict Sample.summary]) 2).
  - sample_run.
  - reflexivity.
  - reflexivity.
  - lia.
Defined.

Lemma unresolved_arguments_are_fatal_witness :
  (∀ f name domain iddom,
     ESplitFqdn f (inl (name, domain, iddom)) ∈ Sample.no_domain →
     (name = PyNone →
      inr (Grmbl "Unknown domain example.com")
      = (inr (Grmbl ("Invalid FQDN " +:+ "host1.example.com")) : unit + stop) ∧
      api_calls Sample.no_domain = []) ∧
     (name ≠ PyNone → iddom = PyNone →
      inr (Grmbl "Unknown domain example.com")
      = (inr (Grmbl ("Unknown domain " +:+ str Sample.repr domain)) : unit + stop) ∧
      api_calls Sample.no_domain = [])) ∧
  (∀ v,
     EGetIdview v (inl PyNone) ∈ Sample.no_domain →
     inr (Grmbl "Unknown domain example.com")
     = (inr (Grmbl ("Unknown view " +:+ "internal")) : unit + stop) ∧
     api_calls Sample.no_domain = []).
Proof.
  apply (unresolved_arguments_are_fatal Sample.repr Sample.args Sample.no_domain
           (inr (Grmbl "Unknown domain example.com"))).
  sample_run.
Defined.

Lemma update_submits_the_fetched_record_witness :
  ∃ d A d',
    fetched "/hosts/42" Sample.updated = Some (PyDict d) ∧
    d !! "addr" = Some (PyList A) ∧
    Some (PyDict (Sample.host [PyStr "192.0.2.10"; PyStr "192.0.2.10"]))
    = Some (PyDict d') ∧
    d' !! "addr" = Some (PyList (A ++ [PyStr "192.0.2.10"])) ∧
    ∀ k, k ≠ "addr" → d' !! k = d !! k.
Proof.
  apply (update_submits_the_fetched_record Sample.repr Sample.args
           Sample.updated (inl tt)
           (Request "put" "/hosts/42" None
              (Some (PyDict (Sample.host [PyStr "192.0.2.10"; PyStr "192.0.2.10"]))))
           (inl (Sample.ok PyNone))).
  - sample_run.
  - apply list_elem_of_In. vm_compute. right. right. left. reflexivity.
  - reflexivity.
Defined.

Lemma bad_answer_is_fatal_witness :
  length Sample.refused = 6%nat ∧
  inr (BadAnswer (Response false None))
  = (inr (BadAnswer (Response false None)) : unit + stop).
Proof.
  apply (bad_answer_is_fatal Sample.repr Sample.args Sample.refused
           (inr (BadAnswer (Response false None))) 5 Sample.the_lookup
           (Response false None)).
  - sample_run.
  - reflexivity.
  - reflexivity.
Defined.

Lemma at_most_one_mutating_call_witness :
  (length (filter (λ rq, mutating rq) (requests Sample.updated)) ≤ 1)%nat.
Proof.
  apply (at_most_one_mutating_call Sample.repr Sample.args Sample.updated (inl tt)).
  sample_run.
Defined.

Lemma falsy_view_is_unknown_witness :
  inr (Grmbl "Unknown view internal")
  = (inr (Grmbl ("Unknown view " +:+ "internal")) : unit + stop) ∧
  api_calls Sample.view_0 = [].
Proof.
  apply (falsy_view_is_unknown Sample.repr Sample.args Sample.view_0
           (inr (Grmbl "Unknown view internal")) "internal" (PyInt 0)).
  - sample_run.
  - apply list_elem_of_In. vm_compute. tauto.
  - reflexivity.
Defined.

Lemma main_deterministic_witness :
  api_calls Sample.created = api_calls Sample.created_as_root ∧
  (inl tt : unit + stop) = inl tt.
Proof.
  apply (main_deterministic Sample.repr Sample.args).
  - sample_run.
  - sample_run.
  - reflexivity.
Defined.

Lemma config_file_option_is_fatal_witness :
  ([ENew (inl tt)] = [ENew (inl tt)] ∧
   (inr (Raised (UnboundLocalError "configfile")) : unit + stop)
   = inr (Raised (UnboundLocalError "configfile")))
  ∨ (∃ s, [ENew (inl tt)] = [ENew (inr s)] ∧
          (inr (Raised (UnboundLocalError "configfile")) : unit + stop) = inr s).
Proof.
  apply (config_file_option_is_fatal Sample.repr Sample.args_c "/etc/netmagisrc").
  - reflexivity.
  - sample_run.
Defined.


(** ** Further properties of [main] *)

Section Further.

Variable repr : pyval -> string.

Implicit Types (args : Namespace) (t : list entry) (o : unit + stop).
Implicit Types (d dm : gmap string pyval).

(** X1. A [RuntimeError] of [nm.read_conf] is reported through [grmbl], with
    the message of the exception, and [read_conf] is the last call of the
    run. *)
Theorem conf_error_is_reported args t o i f m :
  exec (main repr args) t o →
  t !! i = Some (EReadConf f (inr (Raised (RuntimeError m)))) →
  length t = S i ∧ o = inr (Grmbl m).
Proof.
  intros H Hi. runs_of_main H.
  all: repeat (destruct i as [|i]; simplify_eq/=).
  all: done.
Qed.

(** X2. Apart from that [RuntimeError], no failure of a call is caught: when
    a call into the [netmagis] object raises or terminates the process, it
    is the last call of the run and the run ends the way the call did. *)
Theorem failure_ends_the_run args t o i en s :
  exec (main repr args) t o →
  t !! i = Some en →
  failure en = Some s →
  caught en = false →
  length t = S i ∧ o = inr s.
Proof.
  intros H Hi Hs Hc. runs_of_main H.
  all: repeat (destruct i as [|i]; simplify_eq/=).
  all: done.
Qed.

(** X3. The file [nm.read_conf] is given is the one
    [netmagis.default_conf_filename] returned, in a run without [-c]. *)
Theorem default_conf_is_read args t o f a :
  exec (main repr args) t o →
  EReadConf f a ∈ t →
  config_file args = None ∧ EDefaultConfFilename (inl f) ∈ t.
Proof.
  intros H Hin. runs_of_main H.
  all: elem_inv Hin.
  all: split; [done|elem].
Qed.

(** X4. A run issues an API request only once the configuration is read,
    [split_fqdn] has found a name and a domain identifier and [get_idview]
    a truthy view identifier; its first request is the host lookup, with
    that name, that domain and the view name as parameters. *)
Theorem requests_need_resolution args t o :
  exec (main repr args) t o →
  api_calls t ≠ [] →
  ∃ f name domain iddom idview,
    EReadConf f (inl tt) ∈ t ∧
    ESplitFqdn (fqdn args) (inl (name, domain, iddom)) ∈ t ∧
    name ≠ PyNone ∧ iddom ≠ PyNone ∧
    EGetIdview (view args) (inl idview) ∈ t ∧
    truthy idview = true ∧
    head (requests t)
    = Some (Request "get" "/hosts" (Some (query name domain (view args))) None).
Proof.
  intros H Hne. runs_of_main H.
  all: try (exfalso; by apply Hne).
  all: repeat match goal with u : unit |- _ => destruct u end.
  all: eexists _, _, _, _, _.
  all: split_and!; [elem|elem| | |elem| |reflexivity].
  all: try (intros ->; discriminate).
  all: by apply negb_false_iff.
Qed.

(** X5. A POST request is issued only in a run whose host lookup returned a
    body of length 0. *)
Theorem post_only_without_match args t o rq :
  exec (main repr args) t o →
  rq ∈ requests t →
  verb rq = "post" →
  ∃ j, fetched "/hosts" t = Some j ∧ len j = inl 0%nat.
Proof.
  intros H Hin Hv. runs_of_main H.
  all: cbn [requests api_calls omap list_omap fmap list_fmap fst] in Hin;
    elem_inv Hin.
  all: eexists; split; [reflexivity|done].
Qed.

(** X6. A request on another URI than [/hosts] (the GET and the PUT on a
    host) is issued only in a run whose host lookup returned a body of
    length 1, and its URI is [/hosts/] followed by [str] of the [idhost] of
    the first element of that body. *)
Theorem host_uri_only_with_one_match args t o rq :
  exec (main repr args) t o →
  rq ∈ requests t →
  uri rq ≠ "/hosts" →
  ∃ j m idhost,
    fetched "/hosts" t = Some j ∧
    len j = inl 1%nat ∧
    getitem_0 j = inl m ∧
    getitem m "idhost" = inl idhost ∧
    uri rq = "/hosts/" +:+ str repr idhost.
Proof.
  intros H Hin Hu. runs_of_main H.
  all: cbn [requests api_calls omap list_omap fmap list_fmap fst] in Hin;
    elem_inv Hin.
  all: try done.
  all: eexists _, _, _; split_and!; [reflexivity|done..].
Qed.

(** X7. [main] returns, that is the process exits with status 0, exactly
    when the last API request of the run is a POST or a PUT that the server
    answered with success. *)
Theorem exit_0_iff_mutation_accepted args t o :
  exec (main repr args) t o →
  o = inl tt ↔
  ∃ rq r, last (api_calls t) = Some (rq, inl r) ∧
          mutating rq = true ∧ resp_ok r = true.
Proof.
  intros H. runs_of_main H.
  all: split;
    [intros [=]
    |intros (rq' & r' & Hl & Hm & Hr); simpl in Hl; simplify_eq/=].
  all: try done.
  all: by eexists _, _.
Qed.

(** X8. When the only match of the lookup has no key [idhost], the run ends
    on [KeyError] and the lookup is its only API request. *)
Theorem match_without_idhost args t o dm :
  exec (main repr args) t o →
  fetched "/hosts" t = Some (PyList [PyDict dm]) →
  dm !! "idhost" = None →
  o = inr (Raised KeyError) ∧ length (requests t) = 1%nat.
Proof.
  intros H Hf Hid. runs_of_main H.
  all: simpl in Hf; simplify_eq/=.
  all: try rewrite Hid in *; simplify_eq/=.
  all: done.
Qed.

(** X9. When the full record of the host has no key [addr], the run ends on
    [KeyError] and issues no POST and no PUT. *)
Theorem record_without_addr args t o dm idhost d :
  exec (main repr args) t o →
  fetched "/hosts" t = Some (PyList [PyDict dm]) →
  dm !! "idhost" = Some idhost →
  fetched ("/hosts/" +:+ str repr idhost) t = Some (PyDict d) →
  d !! "addr" = None →
  o = inr (Raised KeyError) ∧ filter (λ rq, mutating rq) (requests t) = [].
Proof.
  intros H Hf Hid Hg HA. runs_of_main H.
  all: simpl in Hf; simplify_eq/=.
  all: try rewrite Hid in *; simplify_eq/=.
  all: rewrite ?String.eqb_refl in Hg; simplify_eq/=.
  all: try rewrite HA in *; simplify_eq/=.
  all: done.
Qed.

(** X10. When the full record of the host holds under [addr] a value that
    is not a list, the run ends on [AttributeError] and issues no POST and
    no PUT. *)
Theorem addr_must_be_a_list args t o dm idhost d v :
  exec (main repr args) t o →
  fetched "/hosts" t = Some (PyList [PyDict dm]) →
  dm !! "idhost" = Some idhost →
  fetched ("/hosts/" +:+ str repr idhost) t = Some (PyDict d) →
  d !! "addr" = Some v →
  (∀ A, v ≠ PyList A) →
  o = inr (Raised AttributeError) ∧
  filter (λ rq, mutating rq) (requests t) = [].
Proof.
  intros H Hf Hid Hg HA Hv. runs_of_main H.
  all: simpl in Hf; simplify_eq/=.
  all: try rewrite Hid in *; simplify_eq/=.
  all: rewrite ?String.eqb_refl in Hg; simplify_eq/=.
  all: try rewrite HA in *; simplify_eq/=.
  all: repeat match goal with
              | E : append ?x _ = _ |- _ => destruct x; simplify_eq/=
              end.
  all: try done.
  all: by edestruct Hv.
Qed.

(** X11. When the body of the lookup is a value [len] is not defined on
    ([None], a number, a boolean), the run ends on [TypeError] and the
    lookup is its only API request. *)
Theorem body_without_len args t o j e :
  exec (main repr args) t o →
  fetched "/hosts" t = Some j →
  len j = inr e →
  o = inr (Raised TypeError) ∧ length (requests t) = 1%nat.
Proof.
  intros H Hf Hlen. runs_of_main H.
  all: simpl in Hf; simplify_eq/=.
  all: try congruence.
  all: destruct j; simplify_eq/=; done.
Qed.


(** X13. When [split_fqdn] returns no name or no domain identifier, it is
    the last call of the run: the view is not looked up. *)
Theorem failed_split_is_last args t o i f name domain iddom :
  exec (main repr args) t o →
  t !! i = Some (ESplitFqdn f (inl (name, domain, iddom))) →
  name = PyNone ∨ iddom = PyNone →
  length t = S i.
Proof.
  intros H Hi Hn. runs_of_main H.
  all: repeat (destruct i as [|i]; simplify_eq/=).
  all: try done.
  all: destruct Hn; simplify_eq/=.
Qed.

End Further.

(** The decimal writing of an integer is never empty, and tells the
    integer. *)
Lemma to_int_nonnil (z : Z) :
  Z.to_int z ≠ Decimal.Pos Decimal.Nil ∧ Z.to_int z ≠ Decimal.Neg Decimal.Nil.
Proof.
  destruct z; simpl; split; try discriminate.
  - intros [= H]. by apply DecimalPos.Unsigned.to_uint_nonnil in H.
  - intros [= H]. by apply DecimalPos.Unsigned.to_uint_nonnil in H.
Qed.

Lemma string_of_int_inj (a b : Z) :
  NilZero.string_of_int (Z.to_int a) = NilZero.string_of_int (Z.to_int b) →
  a = b.
Proof.
  intros H. apply DecimalZ.to_int_inj.
  destruct (to_int_nonnil a), (to_int_nonnil b).
  assert (Some (Z.to_int a) = Some (Z.to_int b)) as [=]; [|done].
  rewrite <- (NilZero.isi (Z.to_int a)), <- (NilZero.isi (Z.to_int b)) by done.
  by rewrite H.
Qed.

(** X14. Hosts with different integer identifiers have different URIs:
    ['/hosts/' + str (idhost)] tells [idhost]. *)
Theorem host_uri_inj (repr : pyval → string) (a b : Z) :
  "/hosts/" +:+ str repr (PyInt a) = "/hosts/" +:+ str repr (PyInt b) →
  a = b.
Proof.
  intros H. apply string_of_int_inj.
  cbv beta iota delta [String.append] in H. by simplify_eq.
Qed.

(** ** The further properties on the sample runs *)

Lemma conf_error_is_reported_witness :
  length Sample.conf_error = 3%nat ∧
  inr (Grmbl "no url in configuration")
  = (inr (Grmbl "no url in configuration") : unit + stop).
Proof.
  apply (conf_error_is_reported Sample.repr Sample.args Sample.conf_error
           (inr (Grmbl "no url in configuration")) 2 Sample.conf
           "no url in configuration").
  - sample_run.
  - reflexivity.
Defined.

Lemma failure_ends_the_run_witness :
  length Sample.conf_denied = 3%nat ∧
  inr (Raised (OtherError "PermissionError"))
  = (inr (Raised (OtherError "PermissionError")) : unit + stop).
Proof.
  apply (failure_ends_the_run Sample.repr Sample.args Sample.conf_denied
           (inr (Raised (OtherError "PermissionError"))) 2
           (EReadConf Sample.conf (inr (Raised (OtherError "PermissionError"))))
           (Raised (OtherError "PermissionError"))).
  - sample_run.
  - reflexivity.
  - reflexivity.
  - reflexivity.
Defined.

Lemma default_conf_is_read_witness :
  config_file Sample.args = None ∧
  EDefaultConfFilename (inl Sample.conf) ∈ Sample.created.
Proof.
  apply (default_conf_is_read Sample.repr Sample.args Sample.created (inl tt)
           Sample.conf (inl tt)).
  - sample_run.
  - apply list_elem_of_In. vm_compute. right. right. left. reflexivity.
Defined.

Lemma requests_need_resolution_witness :
  ∃ f name domain iddom idview,
    EReadConf f (inl tt) ∈ Sample.created ∧
    ESplitFqdn "host1.example.com" (inl (name, domain, iddom)) ∈ Sample.created ∧
    name ≠ PyNone ∧ iddom ≠ PyNone ∧
    EGetIdview "internal" (inl idview) ∈ Sample.created ∧
    truthy idview = true ∧
    head (requests Sample.created)
    = Some (Request "get" "/hosts" (Some (query name domain "internal")) None).
Proof.
  apply (requests_need_resolution Sample.repr Sample.args Sample.created
           (inl tt)).
  - sample_run.
  - vm_compute. discriminate.
Defined.

Lemma post_only_without_match_witness :
  ∃ j, fetched "/hosts" Sample.created = Some j ∧ len j = inl 0%nat.
Proof.
  apply (post_only_without_match Sample.repr Sample.args Sample.created
           (inl tt)
           (Request "post" "/hosts" None
              (Some (new_host Sample.name (PyInt 3) (PyInt 1) "192.0.2.10")))).
  - sample_run.
  - apply list_elem_of_In. vm_compute. right. left. reflexivity.
  - reflexivity.
Defined.

Lemma host_uri_only_with_one_match_witness :
  ∃ j m idhost,
    fetched "/hosts" Sample.updated = Some j ∧
    len j = inl 1%nat ∧
    getitem_0 j = inl m ∧
    getitem m "idhost" = inl idhost ∧
    "/hosts/42" = "/hosts/" +:+ str Sample.repr idhost.
Proof.
  apply (host_uri_only_with_one_match Sample.repr Sample.args Sample.updated
           (inl tt) (Request "get" "/hosts/42" None None)).
  - sample_run.
  - apply list_elem_of_In. vm_compute. right. left. reflexivity.
  - discriminate.
Defined.

Lemma exit_0_iff_mutation_accepted_witness :
  (inl tt : unit + stop) = inl tt ↔
  ∃ rq r, last (api_calls Sample.created) = Some (rq, inl r) ∧
          mutating rq = true ∧ resp_ok r = true.
Proof.
  apply (exit_0_iff_mutation_accepted Sample.repr Sample.args Sample.created).
  sample_run.
Defined.

Lemma match_without_idhost_witness :
  inr (Raised KeyError) = (inr (Raised KeyError) : unit + stop) ∧
  length (requests Sample.no_idhost) = 1%nat.
Proof.
  apply (match_without_idhost Sample.repr Sample.args Sample.no_idhost
           (inr (Raised KeyError)) Sample.anonymous).
  - sample_run.
  - reflexivity.
  - vm_compute. reflexivity.
Defined.

Lemma record_without_addr_witness :
  inr (Raised KeyError) = (inr (Raised KeyError) : unit + stop) ∧
  filter (λ rq, mutating rq) (requests Sample.no_addr) = [].
Proof.
  apply (record_without_addr Sample.repr Sample.args Sample.no_addr
           (inr (Raised KeyError)) Sample.summary (PyInt 42) Sample.bare).
  - sample_run.
  - reflexivity.
  - vm_compute. reflexivity.
  - vm_compute. reflexivity.
  - vm_compute. reflexivity.
Defined.

Lemma addr_must_be_a_list_witness :
  inr (Raised AttributeError) = (inr (Raised AttributeError) : unit + stop) ∧
  filter (λ rq, mutating rq) (requests Sample.addr_not_a_list) = [].
Proof.
  apply (addr_must_be_a_list Sample.repr Sample.args Sample.addr_not_a_list
           (inr (Raised AttributeError)) Sample.summary (PyInt 42)
           Sample.one_addr (PyStr "192.0.2.10")).
  - sample_run.
  - reflexivity.
  - vm_compute. reflexivity.
  - vm_compute. reflexivity.
  - vm_compute. reflexivity.
  - discriminate.
Defined.

Lemma body_without_len_witness :
  inr (Raised TypeError) = (inr (Raised TypeError) : unit + stop) ∧
  length (requests Sample.null_body) = 1%nat.
Proof.
  apply (body_without_len Sample.repr Sample.args Sample.null_body
           (inr (Raised TypeError)) PyNone TypeError).
  - sample_run.
  - reflexivity.
  - reflexivity.
Defined.


Lemma failed_split_is_last_witness : length Sample.no_name = 4%nat.
Proof.
  apply (failed_split_is_last Sample.repr Sample.args Sample.no_name
           (inr (Grmbl "Invalid FQDN host1.example.com")) 3
           "host1.example.com" PyNone PyNone PyNone).
  - sample_run.
  - reflexivity.
  - left. reflexivity.
Defined.

Lemma host_uri_inj_witness : 42%Z = 42%Z.
Proof.
  apply (host_uri_inj Sample.repr 42 42).
  reflexivity.
Defined.
